(** * Shallow embedding of src/routes/studentsRoutes.js

    The route module registers ten Express handlers over the Mongoose
    model [Student].  Each handler awaits one store call inside a
    [try] block and shapes a JSON response.  We model

    - the student document as a record, the collection as the list of
      documents in insertion (natural) order, and the connection state of
      the store as a flag;
    - a store call as a function returning an [outcome]: the promise
      resolves with a value or rejects with an error message;
    - the JSON body of a response as a [json] object (an association
      list of fields), together with the HTTP status.
*)

From Stdlib Require Import ZArith QArith String Ascii List Bool Lia.
From Stdlib Require Import Sorting.Sorted Sorting.Permutation.
Import ListNotations.
Local Open Scope string_scope.
Local Open Scope list_scope.
Local Open Scope Z_scope.

(** ** Data model *)

(** A student document as the handlers read and write it. *)
Record student := mkStudent {
  _id : string;
  name : string;
  marks : Z;
  course : string;
  city : string;
  subjects : list string;
  enrolled : bool;
  createdAt : Z
}.

(** The collection: its documents in natural order, and whether the
    connection to the database is up. *)
Record db := mkDb {
  docs : list student;
  connected : bool
}.

(** Settled state of the promise returned by a Mongoose call. *)
Inductive outcome (A : Type) : Type :=
| Resolved (a : A)
| Rejected (msg : string).
Arguments Resolved {A} a.
Arguments Rejected {A} msg.

#[local] Set Warnings "-register-all".

(** JSON values of the responses (numbers are rationals so that an
    average can be represented). *)
Inductive json : Type :=
| JNull
| JBool (b : bool)
| JNum (q : Q)
| JStr (s : string)
| JArr (l : list json)
| JObj (fields : list (string * json)).

(** An HTTP response: status code and JSON object body.  [res.json]
    without an explicit [res.status] sends 200. *)
Record response := mkResponse {
  status : Z;
  body : list (string * json)
}.

Fixpoint field (k : string) (o : list (string * json)) : option json :=
  match o with
  | [] => None
  | (k', v) :: o' => if String.eqb k k' then Some v else field k o'
  end.

Definition count_json {A} (l : list A) : json :=
  JNum (inject_Z (Z.of_nat (length l))).

Definition student_json (s : student) : json :=
  JObj [("_id", JStr (_id s)); ("name", JStr (name s));
        ("marks", JNum (inject_Z (marks s))); ("course", JStr (course s));
        ("city", JStr (city s)); ("subjects", JArr (map JStr (subjects s)));
        ("enrolled", JBool (enrolled s));
        ("createdAt", JNum (inject_Z (createdAt s)))].

(** The catch block of every handler: [{ success: false, error: error.message }]. *)
Definition error_response (code : Z) (msg : string) : response :=
  mkResponse code [("success", JBool false); ("error", JStr msg)].

Definition not_found_response : response :=
  error_response 404 "Student not found".

(** ** JavaScript helpers used by the filter handler *)

(** Truthiness of an optional query parameter: [undefined] and the empty
    string are falsy. *)
Definition truthy (o : option string) : bool :=
  match o with
  | Some s => negb (String.eqb s "")
  | None => false
  end.

Definition opt_str (o : option string) : string :=
  match o with Some s => s | None => "" end.

(** A JavaScript number produced by [parseInt]: an integer or [NaN]. *)
Inductive jsnum : Type :=
| JsInt (z : Z)
| JsNaN.

Definition is_ws (c : ascii) : bool :=
  let n := nat_of_ascii c in
  (n =? 32)%nat || (n =? 9)%nat || (n =? 10)%nat || (n =? 11)%nat
  || (n =? 12)%nat || (n =? 13)%nat.

Fixpoint skip_ws (s : string) : string :=
  match s with
  | String c r => if is_ws c then skip_ws r else s
  | EmptyString => s
  end.

(** Value of a digit in base up to 36. *)
Definition digit_val (c : ascii) : option Z :=
  let n := Z.of_nat (nat_of_ascii c) in
  if (48 <=? n) && (n <=? 57) then Some (n - 48)
  else if (97 <=? n) && (n <=? 122) then Some (n - 87)
  else if (65 <=? n) && (n <=? 90) then Some (n - 55)
  else None.

(** Longest prefix of digits of [base]; [None] if there is none. *)
Fixpoint digits_acc (base acc : Z) (seen : bool) (s : string) : option Z :=
  let stop := if seen then Some acc else None in
  match s with
  | String c r =>
      match digit_val c with
      | Some d => if d <? base then digits_acc base (acc * base + d) true r
                  else stop
      | None => stop
      end
  | EmptyString => stop
  end.

(** [parseInt(s)] without radix: leading white space, an optional sign,
    an optional [0x]/[0X] prefix selecting base 16, then the longest run
    of digits; [NaN] when no digit is found. *)
Definition parseInt (s : string) : jsnum :=
  let s1 := skip_ws s in
  let '(sign, s2) :=
    match s1 with
    | String "-" r => (-1, r)
    | String "+" r => (1, r)
    | _ => (1, s1)
    end in
  let '(base, s3) :=
    match s2 with
    | String "0" (String x r) =>
        if Ascii.eqb x "x" || Ascii.eqb x "X" then (16, r) else (10, s2)
    | _ => (10, s2)
    end in
  match digits_acc base 0 false s3 with
  | Some n => JsInt (sign * n)
  | None => JsNaN
  end.

(** [s.split(sep)] for a one-character separator. *)
Fixpoint split_on (sep : ascii) (s : string) : list string :=
  match s with
  | EmptyString => [""]
  | String c r =>
      if Ascii.eqb c sep then "" :: split_on sep r
      else match split_on sep r with
           | h :: t => String c h :: t
           | [] => [String c ""]
           end
  end.

(** ** The filter query object *)

(** The keys the filter handler may set on [query]:
    [marks: { $gte }], [course: { $in }] and [$or]. *)
Inductive or_clause : Type :=
| OrCity (c : string)          (* { city: city } *)
| OrMarks (t : jsnum).         (* { marks: { $gte: t } } *)

Record filter_query := mkFilterQuery {
  q_marks : option jsnum;
  q_course : option (list string);
  q_or : option (list or_clause)
}.

Definition empty_query : filter_query := mkFilterQuery None None None.

(** Lines 90-109 of the handler, statement by statement. *)
Definition build_filter_query (minMarks courses city : option string)
  : filter_query :=
  let query := empty_query in
  let query :=
    if truthy minMarks
    then mkFilterQuery (Some (parseInt (opt_str minMarks)))
                       (q_course query) (q_or query)
    else query in
  let query :=
    if truthy courses
    then mkFilterQuery (q_marks query)
                       (Some (split_on "," (opt_str courses))) (q_or query)
    else query in
  if truthy city && truthy minMarks
  then (* query.$or = [...]; delete query.marks *)
    mkFilterQuery None (q_course query)
      (Some [OrCity (opt_str city); OrMarks (parseInt (opt_str minMarks))])
  else query.

(** Evaluation of the filter query by the store: the top-level keys are
    AND-ed, [$gte] compares numerically ([NaN] matches no integer),
    [$in] tests membership, [$or] holds when one of its branches does. *)
Definition gte_match (m : Z) (t : jsnum) : bool :=
  match t with
  | JsInt z => z <=? m
  | JsNaN => false
  end.

Definition clause_holds (s : student) (cl : or_clause) : bool :=
  match cl with
  | OrCity c => String.eqb (city s) c
  | OrMarks t => gte_match (marks s) t
  end.

Definition matches_filter (q : filter_query) (s : student) : bool :=
  match q_marks q with Some t => gte_match (marks s) t | None => true end
  && match q_course q with
     | Some l => existsb (String.eqb (course s)) l
     | None => true
     end
  && match q_or q with
     | Some cls => existsb (clause_holds s) cls
     | None => true
     end.

(** ** Regular expressions of [{ $regex, $options }]

    The search handler hands the path fragment to the store as a regular
    expression.  We model the part of the PCRE syntax made of literal
    characters, escaped punctuation, [.], the quantifiers [*], [+], [?]
    and the anchors [^] (leading) and [$] (trailing).  A pattern whose
    syntax is wrong in this part ([Invalid], with PCRE2's message) makes
    the server reject the query with
    ["Regular expression is invalid: " ++ message]; the constructs beyond
    this part (groups, alternation, classes, counted or lazy repetition,
    letter escapes) are [Unsupported]: the model does not say how the
    server answers them. *)
Inductive atom : Type :=
| AChar (c : ascii)
| AAny.

Inductive quant : Type := QOne | QOpt | QStar | QPlus.

Record regex := mkRegex {
  re_bol : bool;
  re_items : list (atom * quant);
  re_eol : bool
}.

Inductive compiled : Type :=
| Parsed (r : regex)
| Invalid (msg : string)
| Unsupported.

Definition is_alnum (c : ascii) : bool :=
  match digit_val c with Some _ => true | None => false end.

Definition is_quant (c : ascii) : option quant :=
  if Ascii.eqb c "*" then Some QStar
  else if Ascii.eqb c "+" then Some QPlus
  else if Ascii.eqb c "?" then Some QOpt
  else None.

(** Lexical tokens of a pattern. *)
Inductive token : Type :=
| TAtom (a : atom)
| TQuant (q : quant)
| TEol.

Fixpoint lex (s : string) : list token + compiled :=
  let cont t r := match lex r with
                  | inl ts => inl (t :: ts)
                  | inr c => inr c
                  end in
  match s with
  | EmptyString => inl []
  | String c r =>
      match is_quant c with
      | Some q => cont (TQuant q) r
      | None =>
          if Ascii.eqb c "\" then
            match r with
            | EmptyString => inr (Invalid "\ at end of pattern")
            | String e r' =>
                if is_alnum e then inr Unsupported else cont (TAtom (AChar e)) r'
            end
          else if Ascii.eqb c "$" then
            match r with
            | EmptyString => inl [TEol]
            | _ => inr Unsupported
            end
          else if Ascii.eqb c ")" then inr (Invalid "unmatched closing parenthesis")
          else if Ascii.eqb c "(" || Ascii.eqb c "[" || Ascii.eqb c "|"
                  || Ascii.eqb c "{" || Ascii.eqb c "^" then inr Unsupported
          else if Ascii.eqb c "." then cont (TAtom AAny) r
          else cont (TAtom (AChar c)) r
      end
  end.

(** Attach each quantifier to the atom before it. *)
Fixpoint group (ts : list token) : list (atom * quant) * bool + compiled :=
  let cons_item it rest :=
    match group rest with
    | inl (its, e) => inl (it :: its, e)
    | inr c => inr c
    end in
  match ts with
  | [] => inl ([], false)
  | TEol :: _ => inl ([], true)
  | TQuant _ :: _ => inr (Invalid "quantifier does not follow a repeatable item")
  | TAtom a :: TQuant _ :: TQuant _ :: _ => inr Unsupported
  | TAtom a :: TQuant q :: rest => cons_item (a, q) rest
  | TAtom a :: rest => cons_item (a, QOne) rest
  end.

(** A leading [^] is the start anchor; a quantifier right after it is
    outside the modelled syntax. *)
Definition compile_regex (pattern : string) : compiled :=
  let '(bol, body) :=
    match pattern with
    | String "^" r => (true, r)
    | _ => (false, pattern)
    end in
  let quantified_anchor :=
    match body with
    | String c _ => bol && match is_quant c with Some _ => true | None => false end
    | EmptyString => false
    end in
  if quantified_anchor then Unsupported else
  match lex body with
  | inr c => c
  | inl ts =>
      match group ts with
      | inl (its, eol) => Parsed (mkRegex bol its eol)
      | inr c => c
      end
  end.

(** Case folding of ASCII letters, used by the option ["i"]. *)
Definition lower (c : ascii) : ascii :=
  let n := nat_of_ascii c in
  if (65 <=? n)%nat && (n <=? 90)%nat then ascii_of_nat (n + 32) else c.

Fixpoint lower_string (s : string) : string :=
  match s with
  | EmptyString => EmptyString
  | String c r => String (lower c) (lower_string r)
  end.

Definition atom_match (ci : bool) (a : atom) (d : ascii) : bool :=
  match a with
  | AAny => negb (nat_of_ascii d =? 10)%nat   (* [.] does not match a newline *)
  | AChar c => if ci then Ascii.eqb (lower c) (lower d) else Ascii.eqb c d
  end.

(** [$] without the multiline option: end of subject, or before a final
    newline. *)
Definition at_end (s : string) : bool :=
  match s with
  | EmptyString => true
  | String c EmptyString => (nat_of_ascii c =? 10)%nat
  | _ => false
  end.

(** Zero or more repetitions of an atom, then the continuation [k]. *)
Fixpoint star_match (m : ascii -> bool) (k : string -> bool) (s : string) : bool :=
  k s || match s with
         | String c r => m c && star_match m k r
         | EmptyString => false
         end.

(** Backtracking match of the items at the start of [s]. *)
Fixpoint match_here (ci : bool) (its : list (atom * quant)) (eol : bool)
    (s : string) {struct its} : bool :=
  match its with
  | [] => if eol then at_end s else true
  | (a, q) :: its' =>
      let k := match_here ci its' eol in
      let one s := match s with
                   | String c r => atom_match ci a c && k r
                   | EmptyString => false
                   end in
      match q with
      | QOne => one s
      | QOpt => k s || one s
      | QStar => star_match (atom_match ci a) k s
      | QPlus => match s with
                 | String c r => atom_match ci a c && star_match (atom_match ci a) k r
                 | EmptyString => false
                 end
      end
  end.

(** Unanchored search: a match starting at some position of [s]. *)
Fixpoint search_from (ci : bool) (its : list (atom * quant)) (eol : bool)
    (s : string) : bool :=
  match_here ci its eol s
  || match s with
     | String _ r => search_from ci its eol r
     | EmptyString => false
     end.

Definition re_search (ci : bool) (r : regex) (s : string) : bool :=
  if re_bol r then match_here ci (re_items r) (re_eol r) s
  else search_from ci (re_items r) (re_eol r) s.

(** The option string of [$options]: ["i"] makes the match case-insensitive. *)
Fixpoint has_opt (o : ascii) (opts : string) : bool :=
  match opts with
  | EmptyString => false
  | String c r => Ascii.eqb c o || has_opt o r
  end.

(** ** Stable insertion sort, the model of [$sort] and [.sort()] *)
Section Sort.
Context {A : Type} (before : A -> A -> bool).

Fixpoint insert_by (x : A) (l : list A) : list A :=
  match l with
  | [] => [x]
  | y :: l' => if before x y then x :: l else y :: insert_by x l'
  end.

Fixpoint sort_by (l : list A) : list A :=
  match l with
  | [] => []
  | x :: l' => insert_by x (sort_by l')
  end.
End Sort.

(** ** The Mongoose model [Student] *)

(** The rejection of an operation while the connection is down (the
    command is buffered, then times out). *)
Definition connection_error (op : string) : string :=
  ("Operation `students." ++ op ++ "()` buffering timed out after 10000ms")%string.

Definition dq : string := String (ascii_of_nat 34) EmptyString.

Fixpoint all_chars (p : ascii -> bool) (s : string) : bool :=
  match s with
  | EmptyString => true
  | String c r => p c && all_chars p r
  end.

Definition is_hex (c : ascii) : bool :=
  match digit_val c with Some d => d <? 16 | None => false end.

(** Casting a path parameter to an ObjectId (its canonical lower-case
    hex form): only a string of 24 hexadecimal digits casts. *)
Definition cast_oid (id : string) : option string :=
  if (String.length id =? 24)%nat && all_chars is_hex id then Some (lower_string id)
  else None.

Definition cast_error (id : string) : string :=
  ("Cast to ObjectId failed for value " ++ dq ++ id ++ dq ++ " (type string) at path "
   ++ dq ++ "_id" ++ dq ++ " for model " ++ dq ++ "Student" ++ dq)%string.

(** [{ marks: { $gte: NaN } }] fails to cast when the query is executed. *)
Definition nan_cast_error : string :=
  ("Cast to Number failed for value " ++ dq ++ "NaN" ++ dq ++ " (type number) at path "
   ++ dq ++ "marks" ++ dq ++ " for model " ++ dq ++ "Student" ++ dq)%string.

Definition is_nan (t : jsnum) : bool :=
  match t with JsNaN => true | JsInt _ => false end.

Definition query_has_nan (q : filter_query) : bool :=
  match q_marks q with Some t => is_nan t | None => false end
  || match q_or q with
     | Some cls => existsb (fun cl => match cl with OrMarks t => is_nan t | OrCity _ => false end) cls
     | None => false
     end.

(** Rejection the model gives a pattern outside the modelled syntax (a
    stand-in: the server's answer to such a pattern is not modelled). *)
Definition unsupported_msg : string :=
  "pattern outside the modelled regular expression syntax".

(** Query objects passed to [Student.find]. *)
Inductive student_query : Type :=
| QAll                                   (* find() *)
| QFilter (q : filter_query)             (* find(query) of the filter handler *)
| QName (pattern options : string).      (* find({ name: { $regex, $options } }) *)

(** The filter query is cast (a [NaN] threshold fails) before it is
    sent; a pattern is compiled by the server. *)
Definition Student_find (q : student_query) (st : db) : outcome (list student) :=
  match q with
  | QAll =>
      if negb (connected st) then Rejected (connection_error "find")
      else Resolved (docs st)
  | QFilter fq =>
      if query_has_nan fq then Rejected nan_cast_error
      else if negb (connected st) then Rejected (connection_error "find")
      else Resolved (filter (matches_filter fq) (docs st))
  | QName pat opts =>
      if negb (connected st) then Rejected (connection_error "find") else
      match compile_regex pat with
      | Parsed r =>
          Resolved (filter (fun s => re_search (has_opt "i" opts) r (name s)) (docs st))
      | Invalid m => Rejected ("Regular expression is invalid: " ++ m)%string
      | Unsupported => Rejected unsupported_msg
      end
  end.

(** [Student.find().sort({ createdAt: -1 })]. *)
Definition by_createdAt_desc (a b : student) : bool := createdAt b <=? createdAt a.

Definition Student_find_sorted (st : db) : outcome (list student) :=
  match Student_find QAll st with
  | Resolved l => Resolved (sort_by by_createdAt_desc l)
  | Rejected m => Rejected m
  end.

Definition has_id (oid : string) (s : student) : bool := String.eqb (_id s) oid.

Definition Student_findById (id : string) (st : db) : outcome (option student) :=
  match cast_oid id with
  | None => Rejected (cast_error id)
  | Some oid =>
      if negb (connected st) then Rejected (connection_error "findOne")
      else Resolved (find (has_id oid) (docs st))
  end.

(** Fields a creation body provides; the store adds [_id] and [createdAt]. *)
Record student_body := mkBody {
  b_name : string;
  b_marks : Z;
  b_course : string;
  b_city : string;
  b_subjects : list string;
  b_enrolled : bool
}.

Definition new_student (oid : string) (now : Z) (b : student_body) : student :=
  mkStudent oid (b_name b) (b_marks b) (b_course b) (b_city b)
            (b_subjects b) (b_enrolled b) now.

(** [Student.create(body)]: the fresh ObjectId and the clock reading are
    supplied by the environment. *)
Definition Student_create (oid : string) (now : Z) (b : student_body) (st : db)
  : outcome student * db :=
  if negb (connected st) then (Rejected (connection_error "insertOne"), st)
  else let s := new_student oid now b in
       (Resolved s, mkDb (docs st ++ [s]) true).

Definition Student_insertMany (items : list (string * Z * student_body)) (st : db)
  : outcome (list student) * db :=
  if negb (connected st) then (Rejected (connection_error "insertMany"), st)
  else let l := map (fun '(oid, now, b) => new_student oid now b) items in
       (Resolved l, mkDb (docs st ++ l) true).

(** Update documents given to [findByIdAndUpdate]: the request body of the
    whole-field update (the fields it sets), or the operator document
    [{ $inc: { marks }, $push: { subjects }, $set: { enrolled } }]. *)
Record patch := mkPatch {
  p_name : option string;
  p_marks : option Z;
  p_course : option string;
  p_city : option string;
  p_subjects : option (list string);
  p_enrolled : option bool
}.

Record op_update := mkOpUpdate {
  inc_marks : Z;
  push_subjects : string;
  set_enrolled : bool
}.

Inductive update_doc : Type :=
| UPatch (p : patch)
| UOps (u : op_update).

Definition or_else {A} (o : option A) (d : A) : A :=
  match o with Some x => x | None => d end.

Definition apply_update (u : update_doc) (s : student) : student :=
  match u with
  | UPatch p =>
      mkStudent (_id s) (or_else (p_name p) (name s)) (or_else (p_marks p) (marks s))
        (or_else (p_course p) (course s)) (or_else (p_city p) (city s))
        (or_else (p_subjects p) (subjects s)) (or_else (p_enrolled p) (enrolled s))
        (createdAt s)
  | UOps o =>
      mkStudent (_id s) (name s) (marks s + inc_marks o) (course s) (city s)
        (subjects s ++ [push_subjects o]) (set_enrolled o) (createdAt s)
  end.

(** Replace the first document with the given id by its image under [f];
    return that image ([new: true]). *)
Fixpoint update_first (oid : string) (f : student -> student) (l : list student)
  : option student * list student :=
  match l with
  | [] => (None, [])
  | s :: l' =>
      if has_id oid s then (Some (f s), f s :: l')
      else let '(r, l'') := update_first oid f l' in (r, s :: l'')
  end.

Fixpoint remove_first (oid : string) (l : list student)
  : option student * list student :=
  match l with
  | [] => (None, [])
  | s :: l' =>
      if has_id oid s then (Some s, l')
      else let '(r, l'') := remove_first oid l' in (r, s :: l'')
  end.

Definition Student_findByIdAndUpdate (id : string) (u : update_doc) (st : db)
  : outcome (option student) * db :=
  match cast_oid id with
  | None => (Rejected (cast_error id), st)
  | Some oid =>
      if negb (connected st) then (Rejected (connection_error "findOneAndUpdate"), st)
      else let '(r, l) := update_first oid (apply_update u) (docs st) in
           (Resolved r, mkDb l true)
  end.

Definition Student_findByIdAndDelete (id : string) (st : db)
  : outcome (option student) * db :=
  match cast_oid id with
  | None => (Rejected (cast_error id), st)
  | Some oid =>
      if negb (connected st) then (Rejected (connection_error "findOneAndDelete"), st)
      else let '(r, l) := remove_first oid (docs st) in
           (Resolved r, mkDb l true)
  end.

(** The aggregation pipeline
    [[{ $group: { _id: "$course", totalStudents: { $sum: 1 },
                  averageMarks: { $avg: "$marks" }, maxMarks: { $max: "$marks" },
                  minMarks: { $min: "$marks" } } },
      { $sort: { averageMarks: -1 } }]]
    evaluated as the store streams the documents: one accumulator per
    group key, then the output documents sorted. *)
Record accum := mkAccum {
  a_count : Z;
  a_sum : Z;
  a_max : Z;
  a_min : Z
}.

Definition accum_step (eo : option accum) (m : Z) : accum :=
  match eo with
  | None => mkAccum 1 m m m
  | Some a => mkAccum (a_count a + 1) (a_sum a + m) (Z.max (a_max a) m) (Z.min (a_min a) m)
  end.

Fixpoint assoc_get (k : string) (l : list (string * accum)) : option accum :=
  match l with
  | [] => None
  | (k', v) :: l' => if String.eqb k k' then Some v else assoc_get k l'
  end.

Fixpoint assoc_upd (k : string) (f : option accum -> accum) (l : list (string * accum))
  : list (string * accum) :=
  match l with
  | [] => [(k, f None)]
  | (k', v) :: l' =>
      if String.eqb k k' then (k', f (Some v)) :: l' else (k', v) :: assoc_upd k f l'
  end.

Definition group_step (groups : list (string * accum)) (s : student)
  : list (string * accum) :=
  assoc_upd (course s) (fun eo => accum_step eo (marks s)) groups.

Definition group_by_course (l : list student) : list (string * accum) :=
  fold_left group_step l [].

Record group_stats := mkGroupStats {
  g_id : string;
  totalStudents : Z;
  averageMarks : Q;
  maxMarks : Z;
  minMarks : Z
}.

Definition finalize (g : string * accum) : group_stats :=
  let '(k, a) := g in
  mkGroupStats k (a_count a) (inject_Z (a_sum a) / inject_Z (a_count a)) (a_max a) (a_min a).

Definition by_average_desc (g h : group_stats) : bool :=
  Qle_bool (averageMarks h) (averageMarks g).

Definition Student_aggregate_stats (st : db) : outcome (list group_stats) :=
  if negb (connected st) then Rejected (connection_error "aggregate")
  else Resolved (sort_by by_average_desc (map finalize (group_by_course (docs st)))).

Definition group_json (g : group_stats) : json :=
  JObj [("_id", JStr (g_id g)); ("totalStudents", JNum (inject_Z (totalStudents g)));
        ("averageMarks", JNum (averageMarks g)); ("maxMarks", JNum (inject_Z (maxMarks g)));
        ("minMarks", JNum (inject_Z (minMarks g)))].

(** ** The ten handlers

    Each handler is the code after the [await]: how the settled store
    call is turned into a response, the [catch] branch included. *)

Definition ok_true : string * json := ("success", JBool true).

(* 1. POST /api/v1/students/create *)
Definition create_handler (o : outcome student) : response :=
  match o with
  | Resolved s => mkResponse 201 [ok_true; ("data", student_json s)]
  | Rejected m => error_response 400 m
  end.

(* 2. POST /api/v1/students/create/bulk *)
Definition bulk_handler (o : outcome (list student)) : response :=
  match o with
  | Resolved l => mkResponse 201 [ok_true; ("count", count_json l);
                                  ("data", JArr (map student_json l))]
  | Rejected m => error_response 400 m
  end.

(* 3. GET /api/v1/students/get *)
Definition list_handler (o : outcome (list student)) : response :=
  match o with
  | Resolved l => mkResponse 200 [ok_true; ("count", count_json l);
                                  ("data", JArr (map student_json l))]
  | Rejected m => error_response 500 m
  end.

(* 4. GET /api/v1/students/get/:id *)
Definition get_handler (o : outcome (option student)) : response :=
  match o with
  | Resolved None => not_found_response
  | Resolved (Some s) => mkResponse 200 [ok_true; ("data", student_json s)]
  | Rejected m => error_response 500 m
  end.

(* 5. GET /api/v1/students/filter *)
Definition filter_description : string :=
  "Filtered students using $gte, $in, $or operators".

Definition filter_handler (o : outcome (list student)) : response :=
  match o with
  | Resolved l => mkResponse 200 [ok_true; ("description", JStr filter_description);
                                  ("count", count_json l);
                                  ("data", JArr (map student_json l))]
  | Rejected m => error_response 500 m
  end.

(* 6. GET /api/v1/students/search/:name *)
Definition search_description (nm : string) : string :=
  ("Students matching '" ++ nm ++ "' (case-insensitive)")%string.

Definition search_handler (nm : string) (o : outcome (list student)) : response :=
  match o with
  | Resolved l => mkResponse 200 [ok_true; ("description", JStr (search_description nm));
                                  ("count", count_json l);
                                  ("data", JArr (map student_json l))]
  | Rejected m => error_response 500 m
  end.

(* 7. PUT /api/v1/students/update/:id *)
Definition update_handler (o : outcome (option student)) : response :=
  match o with
  | Resolved None => not_found_response
  | Resolved (Some s) => mkResponse 200 [ok_true; ("data", student_json s)]
  | Rejected m => error_response 400 m
  end.

(* 8. PUT /api/v1/students/update/:id/operators *)
Definition operators_description : string :=
  "Updated using $inc, $push, $set operators".

Definition operators_handler (o : outcome (option student)) : response :=
  match o with
  | Resolved None => not_found_response
  | Resolved (Some s) => mkResponse 200 [ok_true; ("description", JStr operators_description);
                                        ("data", student_json s)]
  | Rejected m => error_response 400 m
  end.

(* 9. DELETE /api/v1/students/delete/:id *)
Definition delete_handler (o : outcome (option student)) : response :=
  match o with
  | Resolved None => not_found_response
  | Resolved (Some s) => mkResponse 200 [ok_true; ("message", JStr "Student deleted successfully");
                                        ("data", student_json s)]
  | Rejected m => error_response 500 m
  end.

(* 10. GET /api/v1/students/stats *)
Definition stats_description : string :=
  "Course-wise statistics using $group, $sum, $avg, $max, $min".

Definition stats_handler (o : outcome (list group_stats)) : response :=
  match o with
  | Resolved l => mkResponse 200 [ok_true; ("description", JStr stats_description);
                                  ("data", JArr (map group_json l))]
  | Rejected m => error_response 500 m
  end.

(** ** Routes: the store call followed by its handler *)

Definition create_route (oid : string) (now : Z) (b : student_body) (st : db)
  : response * db :=
  let '(o, st') := Student_create oid now b st in (create_handler o, st').

Definition bulk_route (items : list (string * Z * student_body)) (st : db)
  : response * db :=
  let '(o, st') := Student_insertMany items st in (bulk_handler o, st').

Definition list_route (st : db) : response * db :=
  (list_handler (Student_find_sorted st), st).

Definition get_route (id : string) (st : db) : response * db :=
  (get_handler (Student_findById id st), st).

Definition filter_route (minMarks courses city : option string) (st : db)
  : response * db :=
  (filter_handler (Student_find (QFilter (build_filter_query minMarks courses city)) st), st).

Definition search_route (nm : string) (st : db) : response * db :=
  (search_handler nm (Student_find (QName nm "i") st), st).

Definition update_route (id : string) (p : patch) (st : db) : response * db :=
  let '(o, st') := Student_findByIdAndUpdate id (UPatch p) st in (update_handler o, st').

(** The fixed operator document of the operator-update handler. *)
Definition fixed_ops : op_update := mkOpUpdate 5 "AI" true.

Definition operators_route (id : string) (st : db) : response * db :=
  let '(o, st') := Student_findByIdAndUpdate id (UOps fixed_ops) st in
  (operators_handler o, st').

Definition delete_route (id : string) (st : db) : response * db :=
  let '(o, st') := Student_findByIdAndDelete id st in (delete_handler o, st').

Definition stats_route (st : db) : response * db :=
  (stats_handler (Student_aggregate_stats st), st).

(** Every request the module serves, with the route it reaches. *)
Inductive request : Type :=
| ReqCreate (oid : string) (now : Z) (b : student_body)
| ReqBulk (items : list (string * Z * student_body))
| ReqList
| ReqGet (id : string)
| ReqFilter (minMarks courses city : option string)
| ReqSearch (nm : string)
| ReqUpdate (id : string) (p : patch)
| ReqOperators (id : string)
| ReqDelete (id : string)
| ReqStats.

Definition serve (req : request) (st : db) : response * db :=
  match req with
  | ReqCreate oid now b => create_route oid now b st
  | ReqBulk items => bulk_route items st
  | ReqList => list_route st
  | ReqGet id => get_route id st
  | ReqFilter m c y => filter_route m c y st
  | ReqSearch nm => search_route nm st
  | ReqUpdate id p => update_route id p st
  | ReqOperators id => operators_route id st
  | ReqDelete id => delete_route id st
  | ReqStats => stats_route st
  end.

(** A handler applied to the settled store call, whatever its outcome. *)
Inductive handler_call : Type :=
| HCreate (o : outcome student)
| HBulk (o : outcome (list student))
| HList (o : outcome (list student))
| HGet (o : outcome (option student))
| HFilter (o : outcome (list student))
| HSearch (nm : string) (o : outcome (list student))
| HUpdate (o : outcome (option student))
| HOperators (o : outcome (option student))
| HDelete (o : outcome (option student))
| HStats (o : outcome (list group_stats)).

Definition respond (h : handler_call) : response :=
  match h with
  | HCreate o => create_handler o
  | HBulk o => bulk_handler o
  | HList o => list_handler o
  | HGet o => get_handler o
  | HFilter o => filter_handler o
  | HSearch nm o => search_handler nm o
  | HUpdate o => update_handler o
  | HOperators o => operators_handler o
  | HDelete o => delete_handler o
  | HStats o => stats_handler o
  end.

Definition rejection {A} (o : outcome A) : option string :=
  match o with Resolved _ => None | Rejected m => Some m end.

Definition call_rejection (h : handler_call) : option string :=
  match h with
  | HCreate o => rejection o | HBulk o => rejection o | HList o => rejection o
  | HGet o => rejection o | HFilter o => rejection o | HSearch _ o => rejection o
  | HUpdate o => rejection o | HOperators o => rejection o
  | HDelete o => rejection o | HStats o => rejection o
  end.

(** The shape promised for every response: a boolean [success], and an
    [error] text whenever [success] is false. *)
Definition well_shaped (r : response) : Prop :=
  exists b, field "success" (body r) = Some (JBool b)
            /\ (b = false -> exists e, field "error" (body r) = Some (JStr e)).

(** The predicates the filter combinators select, read off the query. *)
Definition combinators (q : filter_query) : list string :=
  (match q_marks q, q_or q with
   | None, None => []
   | _, _ => ["$gte"]
   end)
  ++ (match q_course q with Some _ => ["$in"] | None => [] end)
  ++ (match q_or q with Some _ => ["$or"] | None => [] end).

Fixpoint contains (needle hay : string) : bool :=
  String.prefix needle hay
  || match hay with
     | EmptyString => false
     | String _ r => contains needle r
     end.

(** ** Lemmas *)

Lemma existsb_eqb_In (a : string) (l : list string) :
  existsb (String.eqb a) l = true <-> In a l.
Proof.
  rewrite existsb_exists. split.
  - intros [b [Hin Heq]]. apply String.eqb_eq in Heq. now subst.
  - intros Hin. exists a. split; [exact Hin | apply String.eqb_refl].
Qed.

(** The filter query holds a [NaN] exactly when a truthy [minMarks]
    parses to [NaN]. *)
Lemma build_filter_query_nan :
  forall minMarks courses cty,
    query_has_nan (build_filter_query minMarks courses cty)
    = truthy minMarks && is_nan (parseInt (opt_str minMarks)).
Proof.
  intros minMarks courses cty. unfold build_filter_query, query_has_nan.
  destruct (truthy minMarks), (truthy courses), (truthy cty); simpl;
    destruct (parseInt (opt_str minMarks)); reflexivity.
Qed.

(** ** Claims about the filter handler *)


(** C10: a city without a marks threshold is ignored: the request answers
    exactly as the same request without the city. *)
Theorem filter_city_ignored_without_minMarks :
  forall (minMarks courses cty : option string) (st : db),
    truthy minMarks = false ->
    filter_route minMarks courses cty st = filter_route minMarks courses None st.
Proof.
  intros minMarks courses cty st Hm.
  unfold filter_route, build_filter_query. rewrite Hm.
  now rewrite andb_false_r.
Qed.


Lemma filter_city_ignored_witness :
  truthy None = false
  /\ filter_route None (Some "CS") (Some "Mumbai") (mkDb [] true)
     = filter_route None (Some "CS") None (mkDb [] true).
Proof.
  split; [reflexivity|].
  apply filter_city_ignored_without_minMarks. reflexivity.
Defined.

(** C9 (counterexample): a filter request with no parameter builds the
    empty query, which uses no combinator, yet its description names
    [$gte], [$in] and [$or]. *)
Lemma filter_description_counterexample :
  field "description" (body (fst (filter_route None None None (mkDb [] true))))
    = Some (JStr filter_description)
  /\ combinators (build_filter_query None None None) = []
  /\ contains "$gte" filter_description = true
  /\ contains "$in" filter_description = true
  /\ contains "$or" filter_description = true.
Proof. repeat split; reflexivity. Qed.

(** C9 (amended): every successful filter response carries the same fixed
    description ["Filtered students using $gte, $in, $or operators"],
    whichever of [minMarks], [courses] and [city] were given. *)
Theorem filter_description_fixed :
  forall (minMarks courses cty : option string) (st : db),
    field "success" (body (fst (filter_route minMarks courses cty st))) = Some (JBool true) ->
    field "description" (body (fst (filter_route minMarks courses cty st)))
      = Some (JStr filter_description).
Proof.
  intros minMarks courses cty st.
  unfold filter_route, filter_handler.
  destruct (Student_find _ st); simpl; [reflexivity | discriminate].
Qed.

Lemma filter_description_fixed_witness :
  field "success" (body (fst (filter_route (Some "50") None None (mkDb [] true))))
    = Some (JBool true)
  /\ field "description" (body (fst (filter_route (Some "50") None None (mkDb [] true))))
     = Some (JStr filter_description).
Proof.
  split; [reflexivity|].
  apply filter_description_fixed. reflexivity.
Defined.

(** ** Claims about error responses *)

(** C2 (counterexample): a malformed identifier on get-by-id and a
    pattern with a dangling quantifier on search are answered with
    status 500, not 400. *)
Lemma malformed_input_status_counterexample :
  status (fst (get_route "xyz" (mkDb [] true))) = 500
  /\ status (fst (search_route "*abc" (mkDb [] true))) = 500
  /\ compile_regex "*abc" = Invalid "quantifier does not follow a repeatable item"
  /\ cast_oid "xyz" = None.
Proof. repeat split; reflexivity. Qed.

(** C2 (amended): get-by-id with an identifier that is not 24 hexadecimal
    digits, and a name search the store rejects (invalid pattern syntax
    among others), answer with status 500 and
    [{ success: false, error: <the store's message> }]. *)
Theorem malformed_input_status_500 :
  (forall (id : string) (st : db),
     cast_oid id = None ->
     fst (get_route id st) = error_response 500 (cast_error id))
  /\ (forall (nm msg : string) (st : db),
        Student_find (QName nm "i") st = Rejected msg ->
        fst (search_route nm st) = error_response 500 msg).
Proof.
  split.
  - intros id st H. unfold get_route, Student_findById. now rewrite H.
  - intros nm msg st H. unfold search_route. rewrite H. reflexivity.
Qed.

Lemma malformed_input_status_500_witness :
  fst (get_route "xyz" (mkDb [] true)) = error_response 500 (cast_error "xyz")
  /\ fst (search_route "*abc" (mkDb [] true))
     = error_response 500
         "Regular expression is invalid: quantifier does not follow a repeatable item".
Proof.
  split.
  - apply (proj1 malformed_input_status_500). reflexivity.
  - apply (proj2 malformed_input_status_500). reflexivity.
Defined.

(** C3: every handler, whatever the settled outcome of its store call,
    answers with a JSON object whose [success] is a boolean and which has
    an [error] text when [success] is false; a rejected store call is
    caught and answered with [success: false] and the rejection message.
    Every request at every store state (connected or not) is answered
    with such a response. *)
Theorem responses_well_shaped :
  (forall h : handler_call,
     well_shaped (respond h)
     /\ (forall m, call_rejection h = Some m ->
          field "success" (body (respond h)) = Some (JBool false)
          /\ field "error" (body (respond h)) = Some (JStr m)))
  /\ (forall (req : request) (st : db), well_shaped (fst (serve req st))).
Proof.
  assert (Hh : forall h : handler_call,
     well_shaped (respond h)
     /\ (forall m, call_rejection h = Some m ->
          field "success" (body (respond h)) = Some (JBool false)
          /\ field "error" (body (respond h)) = Some (JStr m))).
  { intros h.
    destruct h as [o|o|o|o|o|nm o|o|o|o|o];
      destruct o as [[|]|m] || destruct o as [|m];
      simpl; split;
      solve [ intros ? H; inversion H; subst; split; reflexivity
            | intros ? H; discriminate H
            | eexists; split; [reflexivity|];
              intros Hb; try discriminate Hb; eexists; reflexivity ]. }
  split; [exact Hh|].
  intros req st.
  destruct req; simpl.
  - unfold create_route. destruct (Student_create _ _ _ _).
    exact (proj1 (Hh (HCreate _))).
  - unfold bulk_route. destruct (Student_insertMany _ _).
    exact (proj1 (Hh (HBulk _))).
  - exact (proj1 (Hh (HList _))).
  - exact (proj1 (Hh (HGet _))).
  - exact (proj1 (Hh (HFilter _))).
  - exact (proj1 (Hh (HSearch _ _))).
  - unfold update_route. destruct (Student_findByIdAndUpdate _ _ _).
    exact (proj1 (Hh (HUpdate _))).
  - unfold operators_route. destruct (Student_findByIdAndUpdate _ _ _).
    exact (proj1 (Hh (HOperators _))).
  - unfold delete_route. destruct (Student_findByIdAndDelete _ _).
    exact (proj1 (Hh (HDelete _))).
  - exact (proj1 (Hh (HStats _))).
Qed.

(** ** Update and delete by identifier *)

Lemma update_first_found (oid : string) (f : student -> student) (l : list student) (s : student) :
  (forall y, _id (f y) = _id y) ->
  find (has_id oid) l = Some s ->
  exists l', update_first oid f l = (Some (f s), l')
             /\ find (has_id oid) l' = Some (f s).
Proof.
  intros Hf. induction l as [|y l IH]; simpl; [discriminate|].
  destruct (has_id oid y) eqn:Hy.
  - intros H. inversion H; subst. exists (f s :: l). split; [reflexivity|].
    simpl. unfold has_id in *. rewrite Hf. now rewrite Hy.
  - intros H. destruct (IH H) as [l' [Hu Hfind]].
    rewrite Hu. exists (y :: l'). split; [reflexivity|]. simpl. now rewrite Hy.
Qed.

Lemma apply_update_id (u : update_doc) (s : student) : _id (apply_update u s) = _id s.
Proof. destruct u; reflexivity. Qed.

(** C4: on an existing student, the operator update answers with the
    student where marks grew by 5, ["AI"] was appended to subjects and
    enrolled is true, every other field unchanged; a second operator
    update of the same identifier answers with marks grown by 10 and
    ["AI"; "AI"] appended. *)
Theorem operators_update_twice :
  forall (id oid : string) (st : db) (s : student),
    connected st = true ->
    cast_oid id = Some oid ->
    find (has_id oid) (docs st) = Some s ->
    let s1 := mkStudent (_id s) (name s) (marks s + 5) (course s) (city s)
                        (subjects s ++ ["AI"]) true (createdAt s) in
    let s2 := mkStudent (_id s) (name s) (marks s + 10) (course s) (city s)
                        (subjects s ++ ["AI"; "AI"]) true (createdAt s) in
    fst (operators_route id st)
      = mkResponse 200 [ok_true; ("description", JStr operators_description);
                        ("data", student_json s1)]
    /\ find (has_id oid) (docs (snd (operators_route id st))) = Some s1
    /\ fst (operators_route id (snd (operators_route id st)))
       = mkResponse 200 [ok_true; ("description", JStr operators_description);
                         ("data", student_json s2)].
Proof.
  intros id oid st s Hc Hid Hf s1 s2.
  assert (E1 : apply_update (UOps fixed_ops) s = s1) by reflexivity.
  assert (E2 : apply_update (UOps fixed_ops) s1 = s2).
  { unfold s1, s2. simpl. rewrite <- app_assoc. simpl. f_equal. lia. }
  destruct (update_first_found oid (apply_update (UOps fixed_ops)) (docs st) s
              (apply_update_id _) Hf) as [l1 [Hu1 Hf1]].
  rewrite E1 in Hu1, Hf1.
  destruct (update_first_found oid (apply_update (UOps fixed_ops)) l1 s1
              (apply_update_id _) Hf1) as [l2 [Hu2 _]].
  rewrite E2 in Hu2.
  unfold operators_route, Student_findByIdAndUpdate.
  rewrite Hid, Hc. simpl. rewrite Hu1. simpl.
  repeat split; [exact Hf1|].
  rewrite Hu2. reflexivity.
Qed.

Lemma operators_update_twice_witness :
  connected (mkDb [mkStudent "507f1f77bcf86cd799439011" "Anna" 60 "Math" "Pune" ["ML"] false 1] true) = true
  /\ cast_oid "507f1f77bcf86cd799439011" = Some "507f1f77bcf86cd799439011"
  /\ find (has_id "507f1f77bcf86cd799439011")
       (docs (mkDb [mkStudent "507f1f77bcf86cd799439011" "Anna" 60 "Math" "Pune" ["ML"] false 1] true))
     = Some (mkStudent "507f1f77bcf86cd799439011" "Anna" 60 "Math" "Pune" ["ML"] false 1)
  /\ fst (operators_route "507f1f77bcf86cd799439011"
            (snd (operators_route "507f1f77bcf86cd799439011"
               (mkDb [mkStudent "507f1f77bcf86cd799439011" "Anna" 60 "Math" "Pune" ["ML"] false 1] true))))
     = mkResponse 200 [ok_true; ("description", JStr operators_description);
                       ("data", student_json (mkStudent "507f1f77bcf86cd799439011" "Anna" (60 + 10)
                                   "Math" "Pune" (["ML"] ++ ["AI"; "AI"]) true 1))].
Proof.
  split; [reflexivity|]. split; [reflexivity|]. split; [reflexivity|].
  exact (proj2 (proj2 (operators_update_twice "507f1f77bcf86cd799439011" "507f1f77bcf86cd799439011"
    (mkDb [mkStudent "507f1f77bcf86cd799439011" "Anna" 60 "Math" "Pune" ["ML"] false 1] true)
    (mkStudent "507f1f77bcf86cd799439011" "Anna" 60 "Math" "Pune" ["ML"] false 1)
    eq_refl eq_refl eq_refl))).
Defined.

Lemma remove_first_found (oid : string) (l : list student) (s : student) :
  NoDup (map _id l) ->
  find (has_id oid) l = Some s ->
  exists l', remove_first oid l = (Some s, l') /\ find (has_id oid) l' = None.
Proof.
  induction l as [|y l IH]; simpl; [discriminate|].
  intros Hnd. inversion Hnd as [|? ? Hnotin Hnd']; subst.
  destruct (has_id oid y) eqn:Hy.
  - intros H. inversion H; subst. exists l. split; [reflexivity|].
    unfold has_id in Hy. apply String.eqb_eq in Hy. subst oid.
    destruct (find (has_id (_id s)) l) eqn:Hfl; [|reflexivity].
    exfalso. apply find_some in Hfl as [Hin Heq].
    unfold has_id in Heq. apply String.eqb_eq in Heq.
    apply Hnotin. rewrite <- Heq. now apply in_map.
  - intros H. destruct (IH Hnd' H) as [l' [Hr Hfind]].
    rewrite Hr. exists (y :: l'). split; [reflexivity|]. simpl. now rewrite Hy.
Qed.

(** C6: on a store whose identifiers are unique, deleting an existing
    student answers 200 with the confirmation message and the deleted
    student; deleting the same identifier again answers 404. *)
Theorem delete_twice :
  forall (id oid : string) (st : db) (s : student),
    connected st = true ->
    cast_oid id = Some oid ->
    NoDup (map _id (docs st)) ->
    find (has_id oid) (docs st) = Some s ->
    fst (delete_route id st)
      = mkResponse 200 [ok_true; ("message", JStr "Student deleted successfully");
                        ("data", student_json s)]
    /\ status (fst (delete_route id (snd (delete_route id st)))) = 404
    /\ fst (delete_route id (snd (delete_route id st))) = not_found_response.
Proof.
  intros id oid st s Hc Hid Hnd Hf.
  destruct (remove_first_found oid (docs st) s Hnd Hf) as [l' [Hr Hfind]].
  assert (Hr2 : remove_first oid l' = (None, l')).
  { clear Hr Hnd Hf. induction l' as [|y l IH]; [reflexivity|].
    simpl in *. destruct (has_id oid y); [discriminate|]. now rewrite IH. }
  unfold delete_route, Student_findByIdAndDelete.
  rewrite Hid, Hc. simpl. rewrite Hr. simpl. rewrite ?Hid. simpl. rewrite Hr2.
  repeat split.
Qed.

Lemma delete_twice_witness :
  connected (mkDb [mkStudent "507f1f77bcf86cd799439011" "Anna" 60 "Math" "Pune" [] false 1] true) = true
  /\ cast_oid "507f1f77bcf86cd799439011" = Some "507f1f77bcf86cd799439011"
  /\ NoDup (map _id (docs (mkDb [mkStudent "507f1f77bcf86cd799439011" "Anna" 60 "Math" "Pune" [] false 1] true)))
  /\ status (fst (delete_route "507f1f77bcf86cd799439011"
       (snd (delete_route "507f1f77bcf86cd799439011"
          (mkDb [mkStudent "507f1f77bcf86cd799439011" "Anna" 60 "Math" "Pune" [] false 1] true))))) = 404.
Proof.
  split; [reflexivity|]. split; [reflexivity|].
  assert (Hnd : NoDup (map _id (docs (mkDb [mkStudent "507f1f77bcf86cd799439011" "Anna" 60 "Math" "Pune" [] false 1] true)))).
  { simpl. constructor; [intros []|constructor]. }
  split; [exact Hnd|].
  exact (proj1 (proj2 (delete_twice "507f1f77bcf86cd799439011" "507f1f77bcf86cd799439011"
    (mkDb [mkStudent "507f1f77bcf86cd799439011" "Anna" 60 "Math" "Pune" [] false 1] true)
    (mkStudent "507f1f77bcf86cd799439011" "Anna" 60 "Math" "Pune" [] false 1)
    eq_refl eq_refl Hnd eq_refl))).
Defined.

(** ** Properties of the insertion sort *)
Section SortFacts.
Context {A : Type} (before : A -> A -> bool) (R : A -> A -> Prop).
Hypothesis before_R : forall a b, before a b = true -> R a b.
Hypothesis before_total : forall a b, before a b = false -> R b a.

Lemma insert_by_perm (x : A) (l : list A) : Permutation (insert_by before x l) (x :: l).
Proof.
  induction l as [|y l IH]; simpl; [reflexivity|].
  destruct (before x y); [reflexivity|].
  rewrite IH. apply perm_swap.
Qed.

Lemma sort_by_perm (l : list A) : Permutation (sort_by before l) l.
Proof.
  induction l as [|x l IH]; simpl; [reflexivity|].
  rewrite insert_by_perm. now apply perm_skip.
Qed.

Lemma insert_by_hd (y x : A) (l : list A) :
  R y x -> HdRel R y l -> HdRel R y (insert_by before x l).
Proof.
  intros Hyx Hl. destruct l as [|z l]; simpl.
  - now constructor.
  - destruct (before x z); constructor; [exact Hyx|].
    now inversion Hl.
Qed.

Lemma insert_by_sorted (x : A) (l : list A) :
  Sorted R l -> Sorted R (insert_by before x l).
Proof.
  induction l as [|y l IH]; simpl; intros Hs.
  - now repeat constructor.
  - inversion Hs as [|? ? Hs' Hhd]; subst.
    destruct (before x y) eqn:Hxy.
    + constructor; [exact Hs|]. constructor. now apply before_R.
    + constructor; [now apply IH|].
      apply insert_by_hd; [now apply before_total | exact Hhd].
Qed.

Lemma sort_by_sorted (l : list A) : Sorted R (sort_by before l).
Proof.
  induction l as [|x l IH]; simpl; [constructor|].
  now apply insert_by_sorted.
Qed.
End SortFacts.

(** ** Listing after creations *)

(** The store after serving the creations one after the other. *)
Fixpoint create_all (items : list (string * Z * student_body)) (st : db) : db :=
  match items with
  | [] => st
  | (oid, now, b) :: items' => create_all items' (snd (create_route oid now b st))
  end.

Definition created (items : list (string * Z * student_body)) : list student :=
  map (fun '(oid, now, b) => new_student oid now b) items.

Lemma create_all_docs (items : list (string * Z * student_body)) (l : list student) :
  create_all items (mkDb l true) = mkDb (l ++ created items) true.
Proof.
  revert l. induction items as [|[[oid now] b] items IH]; intros l; simpl.
  - now rewrite app_nil_r.
  - rewrite IH. now rewrite <- app_assoc.
Qed.

(** C7: after N creations on an empty store, and no deletion, the
    listing answers with count N and a sequence that is a permutation of
    the N created students, sorted by [createdAt] descending. *)
Theorem list_after_creations :
  forall items : list (string * Z * student_body),
    exists l,
      fst (list_route (create_all items (mkDb [] true)))
        = mkResponse 200 [ok_true; ("count", JNum (inject_Z (Z.of_nat (length items))));
                          ("data", JArr (map student_json l))]
      /\ Permutation l (created items)
      /\ docs (create_all items (mkDb [] true)) = created items
      /\ Sorted (fun a b => createdAt b <= createdAt a) l
      /\ length l = length items.
Proof.
  intros items.
  rewrite create_all_docs. simpl.
  set (l := sort_by by_createdAt_desc (created items)).
  assert (Hp : Permutation l (created items)) by apply sort_by_perm.
  assert (Hlen : length l = length items).
  { rewrite (Permutation_length Hp). unfold created. apply length_map. }
  exists l. split; [|split; [exact Hp|split; [reflexivity|split]]].
  - unfold list_route, Student_find_sorted, list_handler, count_json. simpl.
    fold l. now rewrite Hlen.
  - apply sort_by_sorted.
    + intros a b H. unfold by_createdAt_desc in H. now apply Z.leb_le in H.
    + intros a b H. unfold by_createdAt_desc in H. apply Z.leb_gt in H. lia.
  - exact Hlen.
Qed.

(** ** Course statistics *)

(** The per-course summary as the spec words it: the marks of the
    students of course [c], their number, average, maximum and minimum. *)
Definition course_marks (c : string) (l : list student) : list Z :=
  map marks (filter (fun s => String.eqb (course s) c) l).

Definition list_sum (ms : list Z) : Z := fold_right Z.add 0 ms.

Definition list_max (ms : list Z) : Z :=
  match ms with [] => 0 | m :: r => fold_right Z.max m r end.

Definition list_min (ms : list Z) : Z :=
  match ms with [] => 0 | m :: r => fold_right Z.min m r end.

Definition course_summary (c : string) (l : list student) : group_stats :=
  let ms := course_marks c l in
  mkGroupStats c (Z.of_nat (length ms))
    (inject_Z (list_sum ms) / inject_Z (Z.of_nat (length ms)))
    (list_max ms) (list_min ms).

(** The accumulators of one group after the marks [ms] streamed in. *)
Definition acc_fold (ms : list Z) (eo : option accum) : option accum :=
  fold_left (fun eo m => Some (accum_step eo m)) ms eo.

Lemma assoc_get_upd (c k : string) (f : option accum -> accum) (l : list (string * accum)) :
  assoc_get c (assoc_upd k f l)
  = if String.eqb c k then Some (f (assoc_get k l)) else assoc_get c l.
Proof.
  induction l as [|[k' v] l IH]; simpl.
  - destruct (String.eqb c k); reflexivity.
  - destruct (String.eqb_spec k k') as [->|Hkk'].
    + simpl. destruct (String.eqb_spec c k'); reflexivity.
    + simpl. rewrite IH.
      destruct (String.eqb_spec c k') as [E1|E1], (String.eqb_spec c k) as [E2|E2];
        subst; congruence.
Qed.

Lemma group_invariant (l : list student) (acc : list (string * accum)) (c : string) :
  assoc_get c (fold_left group_step l acc) = acc_fold (course_marks c l) (assoc_get c acc).
Proof.
  revert acc. induction l as [|s l IH]; intros acc; simpl; [reflexivity|].
  rewrite IH. unfold group_step, course_marks. rewrite assoc_get_upd. simpl.
  destruct (String.eqb_spec c (course s)) as [E1|E1],
           (String.eqb_spec (course s) c) as [E2|E2]; subst; try congruence.
  reflexivity.
Qed.

Lemma fold_left_max (r : list Z) (m : Z) : fold_left Z.max r m = fold_right Z.max m r.
Proof.
  revert m. induction r as [|x r IH]; intros m; simpl; [reflexivity|].
  rewrite IH. clear IH. induction r as [|y r IH]; simpl; [lia|].
  rewrite IH. lia.
Qed.

Lemma fold_left_min (r : list Z) (m : Z) : fold_left Z.min r m = fold_right Z.min m r.
Proof.
  revert m. induction r as [|x r IH]; intros m; simpl; [reflexivity|].
  rewrite IH. clear IH. induction r as [|y r IH]; simpl; [lia|].
  rewrite IH. lia.
Qed.

Lemma acc_fold_some (r : list Z) (n s mx mn : Z) :
  acc_fold r (Some (mkAccum n s mx mn))
  = Some (mkAccum (n + Z.of_nat (length r)) (s + list_sum r)
                  (fold_left Z.max r mx) (fold_left Z.min r mn)).
Proof.
  revert n s mx mn. induction r as [|x r IH]; intros n s mx mn; simpl.
  - f_equal. f_equal; lia.
  - unfold acc_fold in *. simpl. rewrite IH. f_equal. f_equal; lia.
Qed.

Lemma acc_fold_summary (c : string) (l : list student) (a : accum) :
  acc_fold (course_marks c l) None = Some a ->
  course_marks c l <> [] /\ finalize (c, a) = course_summary c l.
Proof.
  unfold course_summary. cbv zeta.
  destruct (course_marks c l) as [|m r]; [discriminate|].
  intros H.
  change (acc_fold (m :: r) None) with (acc_fold r (Some (mkAccum 1 m m m))) in H.
  rewrite acc_fold_some in H. injection H as <-.
  split; [discriminate|].
  assert (E : Z.of_nat (length (m :: r)) = 1 + Z.of_nat (length r))
    by (rewrite length_cons; lia).
  rewrite E. unfold finalize, list_max, list_min.
  rewrite fold_left_max, fold_left_min. reflexivity.
Qed.

Lemma assoc_upd_keys (k : string) (f : option accum -> accum) (l : list (string * accum)) (x : string) :
  In x (map fst (assoc_upd k f l)) <-> x = k \/ In x (map fst l).
Proof.
  induction l as [|[k' v] l IH]; simpl; [intuition congruence|].
  destruct (String.eqb_spec k k') as [->|]; simpl; [intuition congruence|].
  rewrite IH. intuition congruence.
Qed.

Lemma assoc_upd_nodup (k : string) (f : option accum -> accum) (l : list (string * accum)) :
  NoDup (map fst l) -> NoDup (map fst (assoc_upd k f l)).
Proof.
  induction l as [|[k' v] l IH]; simpl; intros Hnd.
  - repeat constructor. intros [].
  - inversion Hnd as [|? ? Hnotin Hnd']; subst.
    destruct (String.eqb_spec k k') as [->|Hne]; simpl.
    + now constructor.
    + constructor; [|now apply IH].
      rewrite assoc_upd_keys. intros [H|H]; [congruence | contradiction].
Qed.

Lemma group_keys_nodup (l : list student) (acc : list (string * accum)) :
  NoDup (map fst acc) -> NoDup (map fst (fold_left group_step l acc)).
Proof.
  revert acc. induction l as [|s l IH]; intros acc Hnd; simpl; [exact Hnd|].
  apply IH. now apply assoc_upd_nodup.
Qed.

Lemma assoc_get_In (k : string) (a : accum) (l : list (string * accum)) :
  NoDup (map fst l) -> In (k, a) l -> assoc_get k l = Some a.
Proof.
  induction l as [|[k' v] l IH]; simpl; [intros _ []|].
  intros Hnd Hin. inversion Hnd as [|? ? Hnotin Hnd']; subst.
  destruct (String.eqb_spec k k') as [->|Hne].
  - destruct Hin as [H|H]; [now inversion H|].
    exfalso. apply Hnotin. change k' with (fst (k', a)). now apply in_map.
  - destruct Hin as [H|H]; [inversion H; congruence|]. now apply IH.
Qed.

Lemma assoc_get_keys (k : string) (l : list (string * accum)) :
  In k (map fst l) <-> assoc_get k l <> None.
Proof.
  induction l as [|[k' v] l IH]; simpl; [split; [intros []|congruence]|].
  destruct (String.eqb_spec k k') as [->|Hne]; [split; [discriminate|auto]|].
  rewrite <- IH. split; [intros [H|H]; [congruence|exact H] | auto].
Qed.

Lemma map_finalize_ids (G : list (string * accum)) : map g_id (map finalize G) = map fst G.
Proof. induction G as [|[k a] G IH]; simpl; [reflexivity|]. now rewrite IH. Qed.

Lemma course_marks_nonempty (c : string) (l : list student) :
  course_marks c l <> [] <-> exists s, In s l /\ course s = c.
Proof.
  unfold course_marks. split.
  - destruct (filter _ l) as [|s r] eqn:E; [contradiction|]. intros _.
    assert (Hin : In s (filter (fun s => String.eqb (course s) c) l)) by (rewrite E; now left).
    apply filter_In in Hin as [Hin Heq]. apply String.eqb_eq in Heq. eauto.
  - intros [s [Hin Hc]] Hnil. apply map_eq_nil in Hnil.
    assert (Hf : In s (filter (fun s => String.eqb (course s) c) l)).
    { apply filter_In. split; [exact Hin|]. now apply String.eqb_eq. }
    rewrite Hnil in Hf. contradiction.
Qed.

(** C5: on a connected store the statistics answer with one summary per
    course present among the students (no course twice); each summary
    holds the number of students of that course and the average, maximum
    and minimum of their marks; the summaries are ordered by average
    marks, descending. *)
Theorem stats_by_course :
  forall st : db,
    connected st = true ->
    exists gs,
      fst (stats_route st)
        = mkResponse 200 [ok_true; ("description", JStr stats_description);
                          ("data", JArr (map group_json gs))]
      /\ NoDup (map g_id gs)
      /\ (forall c, In c (map g_id gs) <-> exists s, In s (docs st) /\ course s = c)
      /\ (forall g, In g gs -> g = course_summary (g_id g) (docs st))
      /\ Sorted (fun g h => (averageMarks h <= averageMarks g)%Q) gs.
Proof.
  intros st Hc.
  set (G := group_by_course (docs st)).
  set (gs := sort_by by_average_desc (map finalize G)).
  assert (Hp : Permutation gs (map finalize G)) by apply sort_by_perm.
  assert (Hids : Permutation (map g_id gs) (map fst G)).
  { rewrite <- map_finalize_ids. now apply Permutation_map. }
  assert (HndG : NoDup (map fst G)).
  { apply group_keys_nodup. constructor. }
  assert (HgetG : forall c, assoc_get c G = acc_fold (course_marks c (docs st)) None).
  { intros c. unfold G, group_by_course. now rewrite group_invariant. }
  exists gs. split; [|split; [|split; [|split]]].
  - unfold stats_route, Student_aggregate_stats. now rewrite Hc.
  - apply (Permutation_NoDup (Permutation_sym Hids) HndG).
  - intros c. rewrite <- course_marks_nonempty.
    split.
    + intros Hin. apply (Permutation_in _ Hids) in Hin.
      apply assoc_get_keys in Hin. rewrite HgetG in Hin.
      intros Hnil. rewrite Hnil in Hin. contradiction.
    + intros Hne. apply (Permutation_in _ (Permutation_sym Hids)).
      apply assoc_get_keys. rewrite HgetG.
      destruct (course_marks c (docs st)) as [|m r]; [contradiction|].
      change (acc_fold (m :: r) None) with (acc_fold r (Some (mkAccum 1 m m m))).
      rewrite acc_fold_some. discriminate.
  - intros g Hin. apply (Permutation_in _ Hp) in Hin.
    apply in_map_iff in Hin as [[k a] [<- HinG]].
    apply (assoc_get_In _ _ _ HndG) in HinG. rewrite HgetG in HinG.
    apply acc_fold_summary in HinG as [_ Heq]. rewrite Heq. reflexivity.
  - apply sort_by_sorted.
    + intros g h H. unfold by_average_desc in H. now apply Qle_bool_iff in H.
    + intros g h H. unfold by_average_desc in H. apply Qlt_le_weak, Qnot_le_lt.
      intros Hle. apply Qle_bool_iff in Hle. congruence.
Qed.

Lemma stats_by_course_witness :
  connected (mkDb [mkStudent "507f1f77bcf86cd799439011" "Anna" 60 "Math" "Pune" [] false 1;
                   mkStudent "507f1f77bcf86cd799439012" "Ravi" 40 "CS" "Mumbai" [] false 2;
                   mkStudent "507f1f77bcf86cd799439013" "Bob" 80 "Math" "Delhi" [] false 3] true) = true
  /\ exists gs,
      fst (stats_route (mkDb [mkStudent "507f1f77bcf86cd799439011" "Anna" 60 "Math" "Pune" [] false 1;
                   mkStudent "507f1f77bcf86cd799439012" "Ravi" 40 "CS" "Mumbai" [] false 2;
                   mkStudent "507f1f77bcf86cd799439013" "Bob" 80 "Math" "Delhi" [] false 3] true))
        = mkResponse 200 [ok_true; ("description", JStr stats_description);
                          ("data", JArr (map group_json gs))]
      /\ NoDup (map g_id gs).
Proof.
  split; [reflexivity|].
  destruct (stats_by_course (mkDb [mkStudent "507f1f77bcf86cd799439011" "Anna" 60 "Math" "Pune" [] false 1;
                   mkStudent "507f1f77bcf86cd799439012" "Ravi" 40 "CS" "Mumbai" [] false 2;
                   mkStudent "507f1f77bcf86cd799439013" "Bob" 80 "Math" "Delhi" [] false 3] true)
              eq_refl) as [gs [H1 [H2 _]]].
  exists gs. split; [exact H1 | exact H2].
Defined.

(** On the three students above the statistics are Math (2 students,
    average 70, max 80, min 60) then CS (1 student, 40). *)
Example stats_example :
  stats_route (mkDb [mkStudent "507f1f77bcf86cd799439011" "Anna" 60 "Math" "Pune" [] false 1;
                     mkStudent "507f1f77bcf86cd799439012" "Ravi" 40 "CS" "Mumbai" [] false 2;
                     mkStudent "507f1f77bcf86cd799439013" "Bob" 80 "Math" "Delhi" [] false 3] true)
  = (mkResponse 200 [ok_true; ("description", JStr stats_description);
       ("data", JArr [group_json (mkGroupStats "Math" 2 (140 # 2) 80 60);
                      group_json (mkGroupStats "CS" 1 (40 # 1) 40 40)])],
     mkDb [mkStudent "507f1f77bcf86cd799439011" "Anna" 60 "Math" "Pune" [] false 1;
           mkStudent "507f1f77bcf86cd799439012" "Ravi" 40 "CS" "Mumbai" [] false 2;
           mkStudent "507f1f77bcf86cd799439013" "Bob" 80 "Math" "Delhi" [] false 3] true).
Proof. reflexivity. Qed.

Lemma responses_well_shaped_witness :
  well_shaped (fst (serve ReqList (mkDb [] false)))
  /\ field "error" (body (respond (HGet (Rejected (connection_error "findOne")))))
     = Some (JStr (connection_error "findOne")).
Proof.
  split.
  - apply (proj2 responses_well_shaped).
  - apply (proj1 responses_well_shaped (HGet (Rejected (connection_error "findOne")))).
    reflexivity.
Defined.

(** ** Further properties of the handlers *)

Lemma find_app_last (p : student -> bool) (l : list student) (x : student) :
  find p l = None -> find p (l ++ [x]) = if p x then Some x else None.
Proof.
  induction l as [|y l IH]; simpl; [reflexivity|].
  destruct (p y); [discriminate|exact IH].
Qed.

Lemma remove_first_app_last (oid : string) (l : list student) (x : student) :
  find (has_id oid) l = None -> has_id oid x = true ->
  remove_first oid (l ++ [x]) = (Some x, l).
Proof.
  intros Hf Hx. induction l as [|y l IH]; simpl in *.
  - now rewrite Hx.
  - destruct (has_id oid y); [discriminate|]. now rewrite IH.
Qed.

Lemma update_first_none (oid : string) (f : student -> student) (l : list student) :
  find (has_id oid) l = None -> update_first oid f l = (None, l).
Proof.
  induction l as [|y l IH]; simpl; [reflexivity|].
  destruct (has_id oid y); [discriminate|]. intros H. now rewrite IH.
Qed.

Lemma remove_first_none (oid : string) (l : list student) :
  find (has_id oid) l = None -> remove_first oid l = (None, l).
Proof.
  induction l as [|y l IH]; simpl; [reflexivity|].
  destruct (has_id oid y); [discriminate|]. intros H. now rewrite IH.
Qed.

Lemma remove_first_split (oid : string) (l : list student) (s : student) :
  find (has_id oid) l = Some s ->
  exists pre post, l = pre ++ s :: post /\ find (has_id oid) pre = None
                   /\ remove_first oid l = (Some s, pre ++ post).
Proof.
  induction l as [|y l IH]; simpl; [discriminate|].
  destruct (has_id oid y) eqn:Hy.
  - intros H. inversion H; subst. exists [], l. repeat split.
  - intros H. destruct (IH H) as [pre [post [E [Hpre Hr]]]].
    exists (y :: pre), post. subst l. repeat split.
    + simpl. now rewrite Hy.
    + now rewrite Hr.
Qed.

(** A new student created under a fresh ObjectId is answered with 201 and
    is then found by get-by-id. *)
Theorem create_then_get :
  forall (oid : string) (now : Z) (b : student_body) (st : db),
    connected st = true ->
    cast_oid oid = Some oid ->
    find (has_id oid) (docs st) = None ->
    fst (create_route oid now b st)
      = mkResponse 201 [ok_true; ("data", student_json (new_student oid now b))]
    /\ fst (get_route oid (snd (create_route oid now b st)))
       = mkResponse 200 [ok_true; ("data", student_json (new_student oid now b))].
Proof.
  intros oid now b st Hc Hid Hf.
  unfold create_route, Student_create. rewrite Hc. simpl. split; [reflexivity|].
  unfold get_route, Student_findById. rewrite Hid. simpl.
  rewrite find_app_last by exact Hf.
  unfold has_id. simpl. now rewrite String.eqb_refl.
Qed.

Lemma create_then_get_witness :
  fst (get_route "507f1f77bcf86cd799439011"
         (snd (create_route "507f1f77bcf86cd799439011" 7
                 (mkBody "Anna" 60 "Math" "Pune" [] false) (mkDb [] true))))
  = mkResponse 200 [ok_true; ("data", student_json (new_student "507f1f77bcf86cd799439011" 7
                                          (mkBody "Anna" 60 "Math" "Pune" [] false)))].
Proof.
  exact (proj2 (create_then_get "507f1f77bcf86cd799439011" 7
    (mkBody "Anna" 60 "Math" "Pune" [] false) (mkDb [] true) eq_refl eq_refl eq_refl)).
Defined.

(** Deleting a student just created under a fresh ObjectId answers 200
    with that student and gives back the collection as it was. *)
Theorem create_then_delete :
  forall (oid : string) (now : Z) (b : student_body) (st : db),
    connected st = true ->
    cast_oid oid = Some oid ->
    find (has_id oid) (docs st) = None ->
    let st' := snd (delete_route oid (snd (create_route oid now b st))) in
    fst (delete_route oid (snd (create_route oid now b st)))
      = mkResponse 200 [ok_true; ("message", JStr "Student deleted successfully");
                        ("data", student_json (new_student oid now b))]
    /\ docs st' = docs st.
Proof.
  intros oid now b st Hc Hid Hf st'. unfold st'.
  unfold create_route, Student_create. rewrite Hc. simpl.
  unfold delete_route, Student_findByIdAndDelete. rewrite Hid. simpl.
  rewrite remove_first_app_last; [split; reflexivity | exact Hf |].
  unfold has_id. simpl. apply String.eqb_refl.
Qed.

Lemma create_then_delete_witness :
  docs (snd (delete_route "507f1f77bcf86cd799439011"
         (snd (create_route "507f1f77bcf86cd799439011" 7
                 (mkBody "Anna" 60 "Math" "Pune" [] false) (mkDb [] true)))))
  = docs (mkDb [] true).
Proof.
  exact (proj2 (create_then_delete "507f1f77bcf86cd799439011" 7
    (mkBody "Anna" 60 "Math" "Pune" [] false) (mkDb [] true) eq_refl eq_refl eq_refl)).
Defined.

(** A bulk insert answers 201 with the number of items and the inserted
    students, appends them after the stored ones, and a listing afterwards
    counts the old and the new students. *)
Theorem bulk_then_list :
  forall (items : list (string * Z * student_body)) (st : db),
    connected st = true ->
    fst (bulk_route items st)
      = mkResponse 201 [ok_true; ("count", JNum (inject_Z (Z.of_nat (length items))));
                        ("data", JArr (map student_json (created items)))]
    /\ docs (snd (bulk_route items st)) = docs st ++ created items
    /\ field "count" (body (fst (list_route (snd (bulk_route items st)))))
       = Some (JNum (inject_Z (Z.of_nat (length (docs st) + length items)))).
Proof.
  intros items st Hc.
  unfold bulk_route, Student_insertMany. rewrite Hc. simpl.
  split; [|split; [reflexivity|]].
  - unfold count_json. unfold created. now rewrite length_map.
  - unfold list_route, Student_find_sorted, list_handler, count_json. simpl.
    rewrite (Permutation_length (sort_by_perm _ _)), length_app.
    unfold created. now rewrite length_map.
Qed.

Lemma bulk_then_list_witness :
  field "count" (body (fst (list_route (snd (bulk_route
     [("507f1f77bcf86cd799439011", 1, mkBody "Anna" 60 "Math" "Pune" [] false);
      ("507f1f77bcf86cd799439012", 2, mkBody "Ravi" 40 "CS" "Mumbai" [] false)]
     (mkDb [] true))))))
  = Some (JNum (inject_Z (Z.of_nat (0 + 2)))).
Proof.
  exact (proj2 (proj2 (bulk_then_list
     [("507f1f77bcf86cd799439011", 1, mkBody "Anna" 60 "Math" "Pune" [] false);
      ("507f1f77bcf86cd799439012", 2, mkBody "Ravi" 40 "CS" "Mumbai" [] false)]
     (mkDb [] true) eq_refl))).
Defined.

(** An identifier that casts to an ObjectId matching no student is
    answered 404 ["Student not found"] by get, update, operator update and
    delete, none of which changes the collection. *)
Theorem unknown_id_not_found :
  forall (id oid : string) (p : patch) (st : db),
    connected st = true ->
    cast_oid id = Some oid ->
    find (has_id oid) (docs st) = None ->
    get_route id st = (not_found_response, st)
    /\ update_route id p st = (not_found_response, st)
    /\ operators_route id st = (not_found_response, st)
    /\ delete_route id st = (not_found_response, st).
Proof.
  intros id oid p st Hc Hid Hf. destruct st as [l c]. simpl in Hc, Hf. subst c.
  unfold get_route, update_route, operators_route, delete_route,
    Student_findById, Student_findByIdAndUpdate, Student_findByIdAndDelete.
  rewrite Hid. simpl. rewrite Hf, !update_first_none, remove_first_none by exact Hf.
  repeat split.
Qed.

Lemma unknown_id_not_found_witness :
  delete_route "507f1f77bcf86cd799439099"
    (mkDb [mkStudent "507f1f77bcf86cd799439011" "Anna" 60 "Math" "Pune" [] false 1] true)
  = (not_found_response,
     mkDb [mkStudent "507f1f77bcf86cd799439011" "Anna" 60 "Math" "Pune" [] false 1] true).
Proof.
  exact (proj2 (proj2 (proj2 (unknown_id_not_found "507f1f77bcf86cd799439099"
    "507f1f77bcf86cd799439099" (mkPatch None None None None None None)
    (mkDb [mkStudent "507f1f77bcf86cd799439011" "Anna" 60 "Math" "Pune" [] false 1] true)
    eq_refl eq_refl eq_refl)))).
Defined.

(** The whole-field update of an existing student answers 200 with the
    student where every field given in the body is replaced, and a
    get-by-id afterwards returns that updated student. *)
Theorem update_then_get :
  forall (id oid : string) (p : patch) (st : db) (s : student),
    connected st = true ->
    cast_oid id = Some oid ->
    find (has_id oid) (docs st) = Some s ->
    let s' := apply_update (UPatch p) s in
    fst (update_route id p st) = mkResponse 200 [ok_true; ("data", student_json s')]
    /\ fst (get_route id (snd (update_route id p st)))
       = mkResponse 200 [ok_true; ("data", student_json s')].
Proof.
  intros id oid p st s Hc Hid Hf s'.
  destruct (update_first_found oid (apply_update (UPatch p)) (docs st) s
              (apply_update_id _) Hf) as [l' [Hu Hf']].
  unfold update_route, get_route, Student_findByIdAndUpdate, Student_findById.
  rewrite Hid, Hc. simpl. rewrite Hu. simpl. rewrite ?Hid. simpl. rewrite Hf'.
  repeat split.
Qed.

Lemma update_then_get_witness :
  fst (get_route "507f1f77bcf86cd799439011"
         (snd (update_route "507f1f77bcf86cd799439011"
                 (mkPatch None (Some 75) None (Some "Goa") None None)
                 (mkDb [mkStudent "507f1f77bcf86cd799439011" "Anna" 60 "Math" "Pune" [] false 1] true))))
  = mkResponse 200 [ok_true; ("data", student_json
       (apply_update (UPatch (mkPatch None (Some 75) None (Some "Goa") None None))
          (mkStudent "507f1f77bcf86cd799439011" "Anna" 60 "Math" "Pune" [] false 1)))].
Proof.
  exact (proj2 (update_then_get "507f1f77bcf86cd799439011" "507f1f77bcf86cd799439011"
    (mkPatch None (Some 75) None (Some "Goa") None None)
    (mkDb [mkStudent "507f1f77bcf86cd799439011" "Anna" 60 "Math" "Pune" [] false 1] true)
    (mkStudent "507f1f77bcf86cd799439011" "Anna" 60 "Math" "Pune" [] false 1)
    eq_refl eq_refl eq_refl)).
Defined.

(** An identifier that is not 24 hexadecimal digits is answered 400 by
    the two update routes and 500 by get and delete, each with the cast
    error, and the collection is left unchanged. *)
Theorem malformed_id_statuses :
  forall (id : string) (p : patch) (st : db),
    cast_oid id = None ->
    update_route id p st = (error_response 400 (cast_error id), st)
    /\ operators_route id st = (error_response 400 (cast_error id), st)
    /\ get_route id st = (error_response 500 (cast_error id), st)
    /\ delete_route id st = (error_response 500 (cast_error id), st).
Proof.
  intros id p st H.
  unfold update_route, operators_route, get_route, delete_route,
    Student_findByIdAndUpdate, Student_findById, Student_findByIdAndDelete.
  rewrite H. repeat split.
Qed.

Lemma malformed_id_statuses_witness :
  update_route "abc" (mkPatch None None None None None None) (mkDb [] true)
  = (error_response 400 (cast_error "abc"), mkDb [] true).
Proof.
  exact (proj1 (malformed_id_statuses "abc" (mkPatch None None None None None None)
                  (mkDb [] true) eq_refl)).
Defined.

(** The status the [catch] block of each route sends. *)
Definition catch_status (req : request) : Z :=
  match req with
  | ReqCreate _ _ _ | ReqBulk _ | ReqUpdate _ _ | ReqOperators _ => 400
  | ReqList | ReqGet _ | ReqFilter _ _ _ | ReqSearch _ | ReqDelete _ | ReqStats => 500
  end.

(** When the database is unreachable every request is answered by its
    route's [catch] block ([{ success: false, error }] with 400 for the
    create and update routes, 500 for the others) and nothing is written. *)
Theorem disconnected_answers :
  forall (req : request) (st : db),
    connected st = false ->
    exists msg, serve req st = (error_response (catch_status req) msg, st).
Proof.
  intros req st Hc.
  destruct req; simpl;
    unfold create_route, bulk_route, list_route, get_route, filter_route, search_route,
      update_route, operators_route, delete_route, stats_route,
      Student_create, Student_insertMany, Student_find_sorted, Student_find,
      Student_findById, Student_findByIdAndUpdate, Student_findByIdAndDelete,
      Student_aggregate_stats;
    rewrite ?Hc; simpl;
    repeat match goal with
           | |- context [match cast_oid ?i with _ => _ end] => destruct (cast_oid i)
           | |- context [if query_has_nan ?q then _ else _] => destruct (query_has_nan q)
           end;
    rewrite ?Hc; simpl; eexists; reflexivity.
Qed.

Lemma disconnected_answers_witness :
  exists msg, serve ReqStats (mkDb [] false)
              = (error_response (catch_status ReqStats) msg, mkDb [] false).
Proof. exact (disconnected_answers ReqStats (mkDb [] false) eq_refl). Defined.

(** A filter request without any parameter builds the empty query and
    answers with every stored student, in natural order. *)
Theorem filter_no_params_all :
  forall st : db,
    connected st = true ->
    field "data" (body (fst (filter_route None None None st)))
      = Some (JArr (map student_json (docs st)))
    /\ field "count" (body (fst (filter_route None None None st))) = Some (count_json (docs st)).
Proof.
  intros st Hc.
  assert (E : filter (matches_filter (build_filter_query None None None)) (docs st) = docs st).
  { induction (docs st) as [|s l IH]; simpl; [reflexivity|]. now rewrite IH. }
  unfold filter_route, Student_find. rewrite Hc. simpl negb. cbv iota.
  rewrite E. split; reflexivity.
Qed.

Lemma filter_no_params_all_witness :
  field "count" (body (fst (filter_route None None None
    (mkDb [mkStudent "507f1f77bcf86cd799439011" "Anna" 60 "Math" "Pune" [] false 1] true))))
  = Some (count_json [mkStudent "507f1f77bcf86cd799439011" "Anna" 60 "Math" "Pune" [] false 1]).
Proof.
  exact (proj2 (filter_no_params_all
    (mkDb [mkStudent "507f1f77bcf86cd799439011" "Anna" 60 "Math" "Pune" [] false 1] true) eq_refl)).
Defined.

(** An empty query parameter ([?minMarks=], [?courses=], [?city=]) is
    falsy and is treated exactly as an absent one. *)
Theorem filter_empty_params_absent :
  forall (minMarks courses cty : option string) (st : db),
    filter_route (Some "") courses cty st = filter_route None courses cty st
    /\ filter_route minMarks (Some "") cty st = filter_route minMarks None cty st
    /\ filter_route minMarks courses (Some "") st = filter_route minMarks courses None st.
Proof. intros. repeat split. Qed.



(** Without a marks threshold, a course list filters on [course] alone:
    exactly the students whose course is one of the comma-separated
    names are returned (the city, if any, plays no part). *)
Theorem filter_courses_only :
  forall (minMarks courses cty : option string) (st : db) (x : student),
    connected st = true ->
    truthy minMarks = false ->
    truthy courses = true ->
    exists l,
      field "data" (body (fst (filter_route minMarks courses cty st)))
        = Some (JArr (map student_json l))
      /\ (In x l <-> In x (docs st) /\ In (course x) (split_on "," (opt_str courses))).
Proof.
  intros minMarks courses cty st x Hc Hm Hcs.
  unfold filter_route, Student_find. rewrite build_filter_query_nan, Hm, Hc. simpl.
  eexists. split; [reflexivity|].
  rewrite filter_In. unfold build_filter_query. rewrite Hm, Hcs, andb_false_r.
  unfold matches_filter. simpl. rewrite andb_true_r, existsb_eqb_In. reflexivity.
Qed.

Lemma filter_courses_only_witness :
  exists l,
    field "data" (body (fst (filter_route None (Some "Math,CS") (Some "Goa")
      (mkDb [mkStudent "507f1f77bcf86cd799439011" "Anna" 60 "Math" "Pune" [] false 1] true))))
      = Some (JArr (map student_json l))
    /\ (In (mkStudent "507f1f77bcf86cd799439011" "Anna" 60 "Math" "Pune" [] false 1) l <->
        In (mkStudent "507f1f77bcf86cd799439011" "Anna" 60 "Math" "Pune" [] false 1)
           [mkStudent "507f1f77bcf86cd799439011" "Anna" 60 "Math" "Pune" [] false 1]
        /\ In "Math" (split_on "," (opt_str (Some "Math,CS")))).
Proof.
  apply (filter_courses_only None (Some "Math,CS") (Some "Goa")
    (mkDb [mkStudent "507f1f77bcf86cd799439011" "Anna" 60 "Math" "Pune" [] false 1] true)
    (mkStudent "507f1f77bcf86cd799439011" "Anna" 60 "Math" "Pune" [] false 1));
    reflexivity.
Defined.

(** On any connected store the listing answers with every stored student,
    sorted by [createdAt] descending, and a count equal to their number. *)
Theorem list_sorted_permutation :
  forall st : db,
    connected st = true ->
    exists l,
      fst (list_route st)
        = mkResponse 200 [ok_true; ("count", count_json (docs st));
                          ("data", JArr (map student_json l))]
      /\ Permutation l (docs st)
      /\ Sorted (fun a b => createdAt b <= createdAt a) l.
Proof.
  intros st Hc.
  exists (sort_by by_createdAt_desc (docs st)).
  assert (Hp : Permutation (sort_by by_createdAt_desc (docs st)) (docs st))
    by apply sort_by_perm.
  split; [|split; [exact Hp|]].
  - unfold list_route, Student_find_sorted, Student_find, list_handler, count_json.
    rewrite Hc. simpl. now rewrite (Permutation_length Hp).
  - apply sort_by_sorted.
    + intros a b H. unfold by_createdAt_desc in H. now apply Z.leb_le in H.
    + intros a b H. unfold by_createdAt_desc in H. apply Z.leb_gt in H. lia.
Qed.

Lemma list_sorted_permutation_witness :
  exists l,
    fst (list_route (mkDb [mkStudent "507f1f77bcf86cd799439011" "Anna" 60 "Math" "Pune" [] false 1] true))
      = mkResponse 200 [ok_true;
          ("count", count_json [mkStudent "507f1f77bcf86cd799439011" "Anna" 60 "Math" "Pune" [] false 1]);
          ("data", JArr (map student_json l))]
    /\ Permutation l [mkStudent "507f1f77bcf86cd799439011" "Anna" 60 "Math" "Pune" [] false 1]
    /\ Sorted (fun a b => createdAt b <= createdAt a) l.
Proof.
  exact (list_sorted_permutation
    (mkDb [mkStudent "507f1f77bcf86cd799439011" "Anna" 60 "Math" "Pune" [] false 1] true) eq_refl).
Defined.

(** Deleting an existing student removes exactly the first student with
    that identifier and keeps the others in order. *)
Theorem delete_removes_one :
  forall (id oid : string) (st : db) (s : student),
    connected st = true ->
    cast_oid id = Some oid ->
    find (has_id oid) (docs st) = Some s ->
    exists pre post,
      docs st = pre ++ s :: post
      /\ docs (snd (delete_route id st)) = pre ++ post.
Proof.
  intros id oid st s Hc Hid Hf.
  destruct (remove_first_split oid (docs st) s Hf) as [pre [post [E [_ Hr]]]].
  exists pre, post. split; [exact E|].
  unfold delete_route, Student_findByIdAndDelete. rewrite Hid, Hc. simpl.
  now rewrite Hr.
Qed.

Lemma delete_removes_one_witness :
  exists pre post,
    docs (mkDb [mkStudent "507f1f77bcf86cd799439011" "Anna" 60 "Math" "Pune" [] false 1] true)
      = pre ++ mkStudent "507f1f77bcf86cd799439011" "Anna" 60 "Math" "Pune" [] false 1 :: post
    /\ docs (snd (delete_route "507f1f77bcf86cd799439011"
         (mkDb [mkStudent "507f1f77bcf86cd799439011" "Anna" 60 "Math" "Pune" [] false 1] true)))
       = pre ++ post.
Proof.
  exact (delete_removes_one "507f1f77bcf86cd799439011" "507f1f77bcf86cd799439011"
    (mkDb [mkStudent "507f1f77bcf86cd799439011" "Anna" 60 "Math" "Pune" [] false 1] true)
    (mkStudent "507f1f77bcf86cd799439011" "Anna" 60 "Math" "Pune" [] false 1)
    eq_refl eq_refl eq_refl).
Defined.
